(** * statementdb: the translation subsystem

    A shallow embedding of [statementdb/models.py] (the [Translatable] /
    [Translation] models and the [truncate] helper) and of
    [StatementAdmin.save_model] from [statementdb/admin.py].

    Python [str] values are modelled as [string]; only their length, their
    prefixes and concatenation matter to the code.  Primary keys are [Z].
    The relational store is explicit state; the ORM calls the source makes
    ([filter], [exists], [first], [update], [delete], [save], the model
    constructors) are small operations of a state-and-exception monad and do
    what Django does with the arguments the source passes.  Django runs in
    autocommit mode and the source opens no transaction, so a write that
    happened before an exception stays in the store: the monad returns the
    store on both outcomes. *)

From Stdlib Require Import String Ascii List ZArith Lia Bool.
Import ListNotations.
Local Open Scope string_scope.
Local Open Scope Z_scope.

(** ** Module constants (models.py, lines 8-18) *)

Definition LANGUAGES : list (string * string) :=
  [("de_de", "German"); ("en_US", "English")].

Definition LOCALE : string := "de_de".

Definition LANG_CODE_LEN : Z := 5.

Definition TRUNCATE_AT_LENGTH : Z := 60.

(** ** Python string primitives *)

(** [len(s)] *)
Definition len (s : string) : Z := Z.of_nat (String.length s).

(** [s[:n]]: the first [n] characters, and for a negative [n] everything but
    the last [-n] characters. *)
Definition slice_to (s : string) (n : Z) : string :=
  if n <? 0
  then String.substring 0 (Z.to_nat (len s + n)) s
  else String.substring 0 (Z.to_nat n) s.

(** Truthiness of a [str]: only the empty string is falsy. *)
Definition str_truthy (s : string) : bool :=
  match s with
  | EmptyString => false
  | String _ _ => true
  end.

(** ** [truncate] (models.py, lines 21-29) *)

Definition truncate (s : string) (length : Z) : string :=
  if len s >? length then slice_to s length ++ ".." else s.

(** ** The relational store

    [Translation] is a concrete parent model of [ShortTranslation] and
    [LongTranslation] (it declares no [Meta.abstract]), so every translation
    is one logical row: the parent part ([id], [translatable], [language]) and
    the child part, which holds the [translation] text and tells the two
    representations apart. *)

Inductive Kind : Type :=
  | Short   (* ShortTranslation *)
  | Long.   (* LongTranslation *)

Record TranslationRow : Type := mkRow {
  row_id : Z;
  row_translatable : Z;
  row_language : string;
  row_kind : Kind;
  row_translation : string
}.

(** A [Statement] as far as [save_model] and the store's constraints read
    and write it: its key, and the player, language and content columns. *)
Record Statement : Type := mkStatement {
  st_pk : option Z;
  st_player : Z;
  st_language : string;
  st_content : option Z
}.

Record Store : Type := mkStore {
  translatable_table : list Z;
  translatable_seq : Z;
  translation_table : list TranslationRow;
  translation_seq : Z;
  player_table : list Z;
  statement_table : list Statement;
  statement_seq : Z
}.

Definition empty_store : Store := mkStore [] 1 [] 1 [] [] 1.

(** ** The state-and-exception monad *)

Inductive Exn : Type :=
  | IntegrityError    (* a foreign key that names no stored row *)
  | AttributeError    (* an attribute the object does not have *)
  | DoesNotExist      (* an unset related object *)
  | KeyError          (* a missing dictionary key *)
  | FieldTypeError.   (* [TypeError]: a dictionary where a key is expected *)

Inductive Outcome (A : Type) : Type :=
  | Return (a : A)
  | Raise (e : Exn).
Arguments Return {A} a.
Arguments Raise {A} e.

Definition ORM (A : Type) : Type := Store -> Outcome A * Store.

Definition ret {A} (a : A) : ORM A := fun s => (Return a, s).

Definition raise {A} (e : Exn) : ORM A := fun s => (Raise e, s).

Definition bind {A B} (c : ORM A) (k : A -> ORM B) : ORM B :=
  fun s =>
    match c s with
    | (Return a, s') => k a s'
    | (Raise e, s') => (Raise e, s')
    end.

Notation "x <- c ;; k" := (bind c (fun x => k))
  (at level 61, c at next level, right associativity).
Notation "c ;;; k" := (bind c (fun _ => k))
  (at level 61, right associativity).

(** The store an operation leaves behind, whatever its outcome. *)
Definition exec {A} (c : ORM A) (s : Store) : Store := snd (c s).

(** ** Query sets

    [Model.objects.filter(translatable=f, language=l)] is lazy: it is a
    description of rows, evaluated against the store each time [exists],
    [first], [update] or [delete] is called on it. *)

Record QuerySet : Type := mkQuery {
  qs_model : option Kind;   (* [None]: the parent model [Translation] *)
  qs_translatable : Z;
  qs_language : string
}.

Definition kind_eqb (a b : Kind) : bool :=
  match a, b with
  | Short, Short | Long, Long => true
  | _, _ => false
  end.

Definition qs_matches (q : QuerySet) (r : TranslationRow) : bool :=
  match qs_model q with
  | None => true
  | Some k => kind_eqb k (row_kind r)
  end
  && (row_translatable r =? qs_translatable q)
  && String.eqb (row_language r) (qs_language q).

Definition qs_rows (q : QuerySet) (s : Store) : list TranslationRow :=
  filter (qs_matches q) (translation_table s).

Definition is_empty {A} (l : list A) : bool :=
  match l with
  | [] => true
  | _ :: _ => false
  end.

(** [q.exists()] *)
Definition qs_exists (q : QuerySet) : ORM bool :=
  fun s => (Return (negb (is_empty (qs_rows q s))), s).

(** The row of smallest primary key. *)
Fixpoint min_pk (rs : list TranslationRow) : option TranslationRow :=
  match rs with
  | [] => None
  | r :: rs' =>
      match min_pk rs' with
      | None => Some r
      | Some m => if row_id r <=? row_id m then Some r else Some m
      end
  end.

(** [q.first()]: an unordered query set is ordered by primary key. *)
Definition qs_first (q : QuerySet) : ORM (option TranslationRow) :=
  fun s => (Return (min_pk (qs_rows q s)), s).

Definition set_text (text : string) (r : TranslationRow) : TranslationRow :=
  mkRow (row_id r) (row_translatable r) (row_language r) (row_kind r) text.

Definition with_translations (s : Store) (rows : list TranslationRow) (seq : Z)
  : Store :=
  mkStore (translatable_table s) (translatable_seq s) rows seq
          (player_table s) (statement_table s) (statement_seq s).

Definition update_row (q : QuerySet) (text : string) (r : TranslationRow)
  : TranslationRow :=
  if qs_matches q r then set_text text r else r.

(** [q.update(translation=text)] *)
Definition qs_update (q : QuerySet) (text : string) : ORM unit :=
  fun s =>
    (Return tt,
     with_translations s
       (map (update_row q text) (translation_table s))
       (translation_seq s)).

Definition survives (q : QuerySet) (r : TranslationRow) : bool :=
  negb (qs_matches q r).

(** [q.delete()] *)
Definition qs_delete (q : QuerySet) : ORM unit :=
  fun s =>
    (Return tt,
     with_translations s
       (filter (survives q) (translation_table s))
       (translation_seq s)).

Definition mem (x : Z) (l : list Z) : bool := existsb (Z.eqb x) l.

(** [Translatable().save()]: a fresh row, its key drawn from the sequence. *)
Definition Translatable_save : ORM Z :=
  fun s =>
    let pk := translatable_seq s in
    (Return pk,
     mkStore (translatable_table s ++ [pk]) (pk + 1)
             (translation_table s) (translation_seq s)
             (player_table s) (statement_table s) (statement_seq s)).

(** The dictionary handed to the translation constructors. *)
Record Fields : Type := mkFields {
  d_translatable : Z;
  d_language : string;
  d_translation : string
}.

(** [ShortTranslation(d)] and [LongTranslation(d)]: the source passes the
    dictionary as the first positional argument (models.py, lines 53, 73-75
    and 83-85), so the constructor assigns it to the first field, [id], and
    leaves [translatable], [language] and [translation] at their defaults. *)
Record TranslationInstance : Type := mkInstance {
  inst_model : Kind;
  inst_id : Fields   (* the dictionary, where a key is expected *)
}.

Definition Translation_init (k : Kind) (d : Fields) : TranslationInstance :=
  mkInstance k d.

(** [instance.save()] of such an instance: as [id] is set, [save()] starts
    with an update of the row of that key, and preparing the dictionary as
    an integer key raises [TypeError] before any statement reaches the
    store. *)
Definition Translation_save (t : TranslationInstance) : ORM unit :=
  raise FieldTypeError.

(** ** [ShortTranslation] / [LongTranslation] (models.py, lines 109-127) *)

Definition MAX_LENGTH : Z := 100.

Definition ShortTranslation_filter (f : Z) (l : string) : QuerySet :=
  mkQuery (Some Short) f l.

Definition LongTranslation_filter (f : Z) (l : string) : QuerySet :=
  mkQuery (Some Long) f l.

Definition Translation_filter (f : Z) (l : string) : QuerySet :=
  mkQuery None f l.

(** ** [Translation.get] (models.py, lines 103-106) *)

(** [x.translation] for the result of [first()] on the query set of the
    parent model: [Translation] is concrete and declares no field
    [translation] (only its two children do), so its instances have no such
    attribute; neither has [None]. *)
Definition attr_translation (x : option TranslationRow) : ORM string :=
  match x with
  | Some _ => raise AttributeError
  | None => raise AttributeError
  end.

Definition Translation_get (f : Z) : ORM (option string) :=
  let r := Translation_filter f LOCALE in
  b <- qs_exists r ;;
  if b
  then x <- qs_first r ;; t <- attr_translation x ;; ret (Some t)
  else ret None.

(** ** [Translatable] (models.py, lines 32-85) *)

(** [__str__]: [None] and [''] are both falsy in the test on
    [translation]. *)
Definition Translatable_str (self : Z) : ORM string :=
  translation <- Translation_get self ;;
  ret (match translation with
       | Some t =>
           if str_truthy t then truncate t TRUNCATE_AT_LENGTH
           else "Unused translatable."
       | None => "Unused translatable."
       end).

Definition with_translation (language translation : string) : ORM Z :=
  translatable <- Translatable_save ;;
  let d := mkFields translatable language translation in
  let translation :=
    if len translation <=? MAX_LENGTH
    then Translation_init Short d
    else Translation_init Long d in
  Translation_save translation ;;;
  ret translatable.

Definition set_translation (self : Z) (language translation : string)
  : ORM unit :=
  if len translation <=? MAX_LENGTH
  then
    let t := ShortTranslation_filter self language in
    b <- qs_exists t ;;
    if b
    then qs_update t translation
    else
      qs_delete (LongTranslation_filter self language) ;;;
      Translation_save
        (Translation_init Short (mkFields self language translation))
  else
    let t := LongTranslation_filter self language in
    b <- qs_exists t ;;
    if b
    then qs_update t translation
    else
      qs_delete (ShortTranslation_filter self language) ;;;
      Translation_save
        (Translation_init Long (mkFields self language translation)).

(** ** [StatementAdmin.save_model] (admin.py, lines 23-47) *)

(** A bound [StatementAdminForm]: [cleaned_data] maps field names to the
    submitted values, [changed_data] lists the names of the form's fields
    whose submitted value differs from the initial one. *)
Record Form : Type := mkForm {
  cleaned_data : list (string * string);
  changed_data : list string
}.

(** The fields of [StatementAdminForm]: the editable fields of [Statement]
    without the excluded ['content'], and the declared [orig_content]. *)
Definition StatementAdminForm_fields : list string :=
  ["player"; "language"; "date"; "time"; "location"; "context"; "references";
   "orig_content"].

(** A form of this class reports changes of its own fields only. *)
Definition is_StatementAdminForm (form : Form) : Prop :=
  incl (changed_data form) StatementAdminForm_fields.

Fixpoint lookup (k : string) (d : list (string * string)) : option string :=
  match d with
  | [] => None
  | (k', v) :: d' => if String.eqb k' k then Some v else lookup k d'
  end.

(** [d[k]] *)
Definition getitem (d : list (string * string)) (k : string) : ORM string :=
  match lookup k d with
  | Some v => ret v
  | None => raise KeyError
  end.

(** ['name' in names] *)
Definition str_in (k : string) (names : list string) : bool :=
  existsb (String.eqb k) names.

(** [statement.content] of a statement whose reference is set. *)
Definition attr_content (statement : Statement) : ORM Z :=
  match st_content statement with
  | Some f => ret f
  | None => raise DoesNotExist
  end.

Definition same_pk (pk : Z) (st : Statement) : bool :=
  match st_pk st with
  | Some pk' => pk' =? pk
  | None => false
  end.

Definition with_statements (s : Store) (rows : list Statement) (seq : Z)
  : Store :=
  mkStore (translatable_table s) (translatable_seq s)
          (translation_table s) (translation_seq s)
          (player_table s) rows seq.

(** The foreign keys of a statement row: [player] and [content] must name
    stored rows, and [content] may not be null. *)
Definition Statement_refs_ok (statement : Statement) (s : Store) : bool :=
  mem (st_player statement) (player_table s)
  && match st_content statement with
     | Some c => mem c (translatable_table s)
     | None => false
     end.

(** [super().save_model(...)], that is [statement.save()]: a statement
    without key is inserted under a fresh one; one with a key replaces the
    row of that key, or is inserted under it if no row has it.  The store
    rejects the write when a foreign key is violated. *)
Definition Statement_save (statement : Statement) : ORM Statement :=
  fun s =>
    if Statement_refs_ok statement s
    then
      match st_pk statement with
      | None =>
          let st := mkStatement (Some (statement_seq s)) (st_player statement)
                                (st_language statement)
                                (st_content statement) in
          (Return st,
           with_statements s (statement_table s ++ [st]) (statement_seq s + 1))
      | Some pk =>
          if existsb (same_pk pk) (statement_table s)
          then
            (Return statement,
             with_statements s
               (map (fun st => if same_pk pk st then statement else st)
                    (statement_table s))
               (statement_seq s))
          else
            (Return statement,
             with_statements s (statement_table s ++ [statement])
                             (statement_seq s))
      end
    else (Raise IntegrityError, s).

Definition save_model (statement : Statement) (form : Form) (change : bool)
  : ORM Statement :=
  statement' <-
    (if negb change
     then
       language <- getitem (cleaned_data form) "language" ;;
       orig_content <- getitem (cleaned_data form) "orig_content" ;;
       content <- with_translation language orig_content ;;
       ret (mkStatement (st_pk statement) (st_player statement)
                        (st_language statement) (Some content))
     else if str_in "content" (changed_data form)
     then
       content <- attr_content statement ;;
       language <- getitem (cleaned_data form) "language" ;;
       orig_content <- getitem (cleaned_data form) "orig_content" ;;
       set_translation content language orig_content ;;;
       ret statement
     else ret statement) ;;
  Statement_save statement'.

(** ** The merge step of [set_translation], once for both representations

    The two branches of [set_translation] are the same code with the roles of
    the two models exchanged; [merge k] is that code for target
    representation [k]. *)

Definition other (k : Kind) : Kind :=
  match k with
  | Short => Long
  | Long => Short
  end.

Definition merge (k : Kind) (self : Z) (language translation : string)
  : ORM unit :=
  let t := mkQuery (Some k) self language in
  b <- qs_exists t ;;
  if b
  then qs_update t translation
  else
    qs_delete (mkQuery (Some (other k)) self language) ;;;
    Translation_save
      (Translation_init k (mkFields self language translation)).

(** The representation a text is stored in (models.py, lines 53 and 66). *)
Definition target (translation : string) : Kind :=
  if len translation <=? MAX_LENGTH then Short else Long.

(** The key of a row: its (translatable, language) pair. *)
Definition key_match (f : Z) (l : string) (r : TranslationRow) : bool :=
  (row_translatable r =? f) && String.eqb (row_language r) l.

(** ** Call sequences and store invariants *)

(** The three mutating entry points of the translation subsystem. *)
Inductive Call : Type :=
  | CreateWithTranslation (language translation : string)
  | CreateEmpty
  | SetTranslation (translatable : Z) (language translation : string).

Definition run_call (c : Call) (s : Store) : Store :=
  match c with
  | CreateWithTranslation l t => exec (with_translation l t) s
  | CreateEmpty => exec Translatable_save s
  | SetTranslation f l t => exec (set_translation f l t) s
  end.

Definition run_calls (cs : list Call) (s : Store) : Store :=
  fold_left (fun s c => run_call c s) cs s.

(** All stored rows of one (translatable, language) pair, of either
    representation. *)
Definition rows_for (s : Store) (f : Z) (l : string) : list TranslationRow :=
  qs_rows (Translation_filter f l) s.

(** At most one stored row per (translatable, language) pair. *)
Definition one_row (s : Store) : Prop :=
  forall f l, (List.length (rows_for s f l) <= 1)%nat.

Definition supported (l : string) : bool :=
  existsb (String.eqb l) (map fst LANGUAGES).

(** ** Python values that reach [len] and [str]

    [truncate] and [str] are applied in the models to whatever an attribute
    or [Translation.get] yields: a string, [None], or a [Translatable]
    instance.  [len] of the last two, and a [__str__] that returns something
    else than a string, raise [TypeError]. *)

Inductive Value : Type :=
  | VStr (s : string)
  | VNone
  | VTranslatable (pk : Z).

Inductive Checked (A : Type) : Type :=
  | Fine (a : A)
  | TypeError.
Arguments Fine {A} a.
Arguments TypeError {A}.

(** The value [Translation.get] returns. *)
Definition of_get (t : option string) : Value :=
  match t with
  | Some s => VStr s
  | None => VNone
  end.

(** [truncate(v, length)] for an arbitrary value: [len(v)] is evaluated
    first and raises for a value without length. *)
Definition truncate_value (v : Value) (length : Z) : Checked string :=
  match v with
  | VStr s => Fine (truncate s length)
  | VNone => TypeError
  | VTranslatable _ => TypeError
  end.

(** [str(obj)], given what [obj.__str__()] returned. *)
Definition str_result (v : Value) : Checked string :=
  match v with
  | VStr s => Fine s
  | VNone => TypeError
  | VTranslatable _ => TypeError
  end.

(** The double quote character of the [__str__] formats. *)
Definition dquote : string := String "034"%char EmptyString.

(** ** [Player], [Role], [Medium], [Topic] (models.py, lines 130-219) *)

Record Player : Type := mkPlayer {
  player_name : string
}.

Definition Player_str (self : Player) : string := player_name self.

Record Role : Type := mkRole {
  role_name : Z   (* a [Translatable] *)
}.

(** [Role.__str__]: what the method returns. *)
Definition Role_str (self : Role) : ORM Value :=
  t <- Translation_get (role_name self) ;;
  ret (of_get t).

Record Medium : Type := mkMedium {
  medium_name : string;
  medium_url : string
}.

Definition Medium_str (self : Medium) : string := medium_name self.

Record Topic : Type := mkTopic {
  topic_headline : Z;      (* a [Translatable] *)
  topic_description : Z    (* a [Translatable] *)
}.

(** [Topic.__str__]: what the method returns. *)
Definition Topic_str (self : Topic) : ORM Value :=
  t <- Translation_get (topic_headline self) ;;
  ret (of_get t).

(** [str(role)] and [str(topic)]. *)
Definition str_of_Role (self : Role) : ORM (Checked string) :=
  v <- Role_str self ;;
  ret (str_result v).

Definition str_of_Topic (self : Topic) : ORM (Checked string) :=
  v <- Topic_str self ;;
  ret (str_result v).

(** ** [Statement.__str__] and [Publication.__str__] (models.py, lines
    222-284)

    A statement with its related player loaded; [str(self.location)] and
    [str(self.date)] are library conversions and enter as the strings they
    produce. *)

Record StatementView : Type := mkStatementView {
  sv_player : Player;
  sv_content : Z;          (* a [Translatable] *)
  sv_location : string;    (* [str(self.location)] *)
  sv_date : string         (* [str(self.date)] *)
}.

Definition Statement_format (player content location date : string) : string :=
  player ++ " stated " ++ dquote ++ content ++ dquote ++ " at "
         ++ location ++ " " ++ date.

Definition Statement_str (self : StatementView) : ORM (Checked string) :=
  let player := Player_str (sv_player self) in
  t <- Translation_get (sv_content self) ;;
  ret (match truncate_value (of_get t) TRUNCATE_AT_LENGTH with
       | Fine content =>
           Fine (Statement_format player content (sv_location self)
                                  (sv_date self))
       | TypeError => TypeError
       end).

Record PublicationView : Type := mkPublicationView {
  pv_statement : StatementView;
  pv_medium : Medium;
  pv_date : string         (* [str(self.date)] *)
}.

Definition Publication_format (content medium date : string) : string :=
  dquote ++ content ++ dquote ++ " published in " ++ medium ++ " at "
         ++ date ++ ".".

(** [truncate] receives the [Translatable] itself, not its text. *)
Definition Publication_str (self : PublicationView) : Checked string :=
  match truncate_value (VTranslatable (sv_content (pv_statement self)))
                       TRUNCATE_AT_LENGTH with
  | Fine content =>
      Fine (Publication_format content (Medium_str (pv_medium self))
                               (pv_date self))
  | TypeError => TypeError
  end.

(** ** [Engagement.save] (models.py, lines 168-189) *)

(** A [datetime.date]; dates compare by year, then month, then day. *)
Record Date : Type := mkDate {
  year : Z;
  month : Z;
  day : Z
}.

Definition date_lt (a b : Date) : bool :=
  (year a <? year b)
  || ((year a =? year b)
      && ((month a <? month b)
          || ((month a =? month b) && (day a <? day b)))).

Record Engagement : Type := mkEngagement {
  eng_pk : option Z;
  eng_player : Z;
  eng_role : Z;
  start_date : Date;
  end_date : option Date
}.

(** The tables [Engagement.save] reads and writes. *)
Record EngagementStore : Type := mkEngagementStore {
  player_keys : list Z;
  role_keys : list Z;
  engagement_table : list Engagement;
  engagement_seq : Z
}.

Inductive SaveOutcome : Type :=
  | Saved (e : Engagement)
  | AssertionError
  | ForeignKeyError.

Definition has_pk (pk : Z) (e : Engagement) : bool :=
  match eng_pk e with
  | Some pk' => pk' =? pk
  | None => false
  end.

(** [models.Model.save]: the store rejects a player or role that names no
    row; an engagement without key is inserted under a fresh one, one with a
    key replaces the row of that key or is inserted if there is none. *)
Definition Model_save (e : Engagement) (s : EngagementStore)
  : SaveOutcome * EngagementStore :=
  if mem (eng_player e) (player_keys s) && mem (eng_role e) (role_keys s)
  then
    match eng_pk e with
    | None =>
        let e' := mkEngagement (Some (engagement_seq s)) (eng_player e)
                               (eng_role e) (start_date e) (end_date e) in
        (Saved e',
         mkEngagementStore (player_keys s) (role_keys s)
                           (engagement_table s ++ [e'])
                           (engagement_seq s + 1))
    | Some pk =>
        if existsb (has_pk pk) (engagement_table s)
        then
          (Saved e,
           mkEngagementStore (player_keys s) (role_keys s)
             (map (fun x => if has_pk pk x then e else x)
                  (engagement_table s))
             (engagement_seq s))
        else
          (Saved e,
           mkEngagementStore (player_keys s) (role_keys s)
                             (engagement_table s ++ [e])
                             (engagement_seq s))
    end
  else (ForeignKeyError, s).

(** A [date] is always truthy, so [if self.end_date] tests for [None]. *)
Definition Engagement_save (self : Engagement) (s : EngagementStore)
  : SaveOutcome * EngagementStore :=
  match end_date self with
  | Some e =>
      if date_lt (start_date self) e
      then Model_save self s
      else (AssertionError, s)
  | None => Model_save self s
  end.

(** Every stored engagement that has ended started before it ended. *)
Definition dates_ordered (s : EngagementStore) : Prop :=
  forall e d, In e (engagement_table s) -> end_date e = Some d ->
              date_lt (start_date e) d = true.

(** ** More store invariants *)

(** Every row is stored in the representation its text length asks for. *)
Definition kinds_fit (s : Store) : Prop :=
  forall r, In r (translation_table s) ->
            row_kind r = target (row_translation r).

(** ** Facts about the string primitives *)

Lemma length_append (a b : string) :
  String.length (a ++ b) = (String.length a + String.length b)%nat.
Proof.
  induction a as [|c a IH]; simpl; [reflexivity | now rewrite IH].
Qed.

Lemma length_prefix (n : nat) (s : string) :
  String.length (String.substring 0 n s) = Nat.min n (String.length s).
Proof.
  revert n; induction s as [|c s IH]; intros [|n]; simpl; try reflexivity.
  now rewrite IH.
Qed.

Lemma len_nonneg (s : string) : 0 <= len s.
Proof. unfold len; lia. Qed.

Lemma len_append (a b : string) : len (a ++ b) = len a + len b.
Proof. unfold len; rewrite length_append; lia. Qed.

Lemma len_slice_to (s : string) (n : Z) :
  0 <= n -> n <= len s -> len (slice_to s n) = n.
Proof.
  intros Hn Hle. unfold slice_to.
  destruct (Z.ltb_spec n 0) as [Hneg|_]; [lia|].
  unfold len in *. rewrite length_prefix. lia.
Qed.

Lemma truncate_short (s : string) (n : Z) :
  len s <= n -> truncate s n = s.
Proof.
  intros H. unfold truncate.
  destruct (Z.gtb_spec (len s) n); [lia | reflexivity].
Qed.

Lemma truncate_long (s : string) (n : Z) :
  n < len s -> truncate s n = slice_to s n ++ "..".
Proof.
  intros H. unfold truncate.
  destruct (Z.gtb_spec (len s) n); [reflexivity | lia].
Qed.

Lemma len_truncate_le (s : string) (n : Z) :
  0 <= n -> len (truncate s n) <= n + 2.
Proof.
  intros Hn. destruct (Z_le_gt_dec (len s) n) as [Hle|Hgt].
  - rewrite truncate_short by assumption. lia.
  - rewrite truncate_long by lia.
    rewrite len_append, len_slice_to by lia.
    change (len "..") with 2. lia.
Qed.

(** ** Reading: [Translation.get] and [Translatable.__str__] *)

Lemma qs_matches_kind (k : Kind) (f : Z) (l : string) (r : TranslationRow) :
  qs_matches (mkQuery (Some k) f l) r
  = kind_eqb k (row_kind r) && key_match f l r.
Proof. unfold qs_matches, key_match; simpl. now rewrite andb_assoc. Qed.

Lemma rows_for_filter (s : Store) (f : Z) (l : string) :
  rows_for s f l = filter (key_match f l) (translation_table s).
Proof. reflexivity. Qed.

(** [Translation.get] never writes; it returns [None] when the translatable
    has no preferred-language row and raises [AttributeError] when it has
    one. *)
Lemma Translation_get_spec (f : Z) (s : Store) :
  Translation_get f s
  = (if is_empty (rows_for s f LOCALE)
     then Return None
     else Raise AttributeError,
     s).
Proof.
  unfold Translation_get, bind, qs_exists, qs_first, rows_for.
  destruct (qs_rows (Translation_filter f LOCALE) s) as [|r rs] eqn:E.
  - reflexivity.
  - cbn [is_empty negb]. rewrite E.
    destruct (min_pk (r :: rs)); reflexivity.
Qed.

Lemma Translatable_str_spec (f : Z) (s : Store) :
  Translatable_str f s
  = (if is_empty (rows_for s f LOCALE)
     then Return "Unused translatable."
     else Raise AttributeError,
     s).
Proof.
  unfold Translatable_str, bind. rewrite Translation_get_spec.
  now destruct (is_empty (rows_for s f LOCALE)).
Qed.

(** ** Writing: rows and keys *)

Lemma key_match_iff (f : Z) (l : string) (r : TranslationRow) :
  key_match f l r = true <-> row_translatable r = f /\ row_language r = l.
Proof.
  unfold key_match. rewrite andb_true_iff, Z.eqb_eq, String.eqb_eq. tauto.
Qed.

Lemma key_match_disjoint (f f' : Z) (l l' : string) (r : TranslationRow) :
  (f', l') <> (f, l) -> key_match f l r = true -> key_match f' l' r = false.
Proof.
  intros Hne H. apply key_match_iff in H as [Hf Hl].
  destruct (key_match f' l' r) eqn:E; [|reflexivity].
  apply key_match_iff in E as [Hf' Hl']. exfalso. apply Hne. congruence.
Qed.

Lemma key_match_update_row (q : QuerySet) (f : Z) (l t : string)
      (r : TranslationRow) :
  key_match f l (update_row q t r) = key_match f l r.
Proof. unfold update_row. now destruct (qs_matches q r). Qed.

Lemma kind_eqb_eq (a b : Kind) : kind_eqb a b = true <-> a = b.
Proof. destruct a, b; simpl; split; congruence. Qed.

Lemma kind_eqb_other (k k' : Kind) :
  kind_eqb k k' = false -> kind_eqb (other k) k' = true.
Proof. destruct k, k'; simpl; congruence. Qed.

Lemma is_empty_true {A} (l : list A) : is_empty l = true <-> l = [].
Proof. destruct l; simpl; split; congruence. Qed.

(** ** Writing: how the three mutations act on the rows of a key *)

Section Tables.

Variables (k : Kind) (f : Z) (l : string).

Let qk := mkQuery (Some k) f l.
Let qo := mkQuery (Some (other k)) f l.

Lemma filter_update_same (t : string) (rows : list TranslationRow)
      (f' : Z) (l' : string) :
  filter (key_match f' l') (map (update_row qk t) rows)
  = map (update_row qk t) (filter (key_match f' l') rows).
Proof.
  induction rows as [|r rows IH]; [reflexivity|].
  simpl. rewrite key_match_update_row.
  destruct (key_match f' l' r); simpl; now rewrite IH.
Qed.

Lemma update_other_key (t : string) (rows : list TranslationRow)
      (f' : Z) (l' : string) :
  (f', l') <> (f, l) ->
  map (update_row qk t) (filter (key_match f' l') rows)
  = filter (key_match f' l') rows.
Proof.
  intros Hne. induction rows as [|r rows IH]; [reflexivity|].
  simpl. destruct (key_match f' l' r) eqn:E; [|exact IH].
  simpl. rewrite IH. f_equal.
  unfold update_row, qk. rewrite qs_matches_kind.
  destruct (key_match f l r) eqn:E'.
  - rewrite (key_match_disjoint _ _ _ _ _ Hne E') in E. discriminate.
  - now rewrite andb_false_r.
Qed.

Lemma delete_other_key (q : QuerySet) (rows : list TranslationRow)
      (f' : Z) (l' : string) :
  qs_translatable q = f -> qs_language q = l ->
  (f', l') <> (f, l) ->
  filter (key_match f' l') (filter (survives q) rows)
  = filter (key_match f' l') rows.
Proof.
  intros Hf Hl Hne. induction rows as [|r rows IH]; [reflexivity|].
  simpl. destruct (survives q r) eqn:S; simpl.
  - now rewrite IH.
  - rewrite IH. destruct (key_match f' l' r) eqn:E; [|reflexivity].
    exfalso. unfold survives in S. apply negb_false_iff in S.
    unfold qs_matches in S. rewrite Hf, Hl in S.
    apply andb_true_iff in S as [S Sl].
    apply andb_true_iff in S as [_ Sf].
    assert (K : key_match f l r = true)
      by (unfold key_match; now rewrite Sf, Sl).
    rewrite (key_match_disjoint _ _ _ _ _ Hne K) in E. discriminate.
Qed.

Lemma delete_shrinks (q : QuerySet) (rows : list TranslationRow)
      (f' : Z) (l' : string) :
  (List.length (filter (key_match f' l') (filter (survives q) rows))
   <= List.length (filter (key_match f' l') rows))%nat.
Proof.
  induction rows as [|r rows IH]; [simpl; lia|].
  simpl. destruct (survives q r); simpl;
    destruct (key_match f' l' r); simpl; lia.
Qed.

(** With no row of the target representation, deleting the rows of the
    other one leaves the key without rows. *)
Lemma delete_clears_key (rows : list TranslationRow) :
  filter (qs_matches qk) rows = [] ->
  filter (key_match f l) (filter (survives qo) rows) = [].
Proof.
  induction rows as [|r rows IH]; [reflexivity|].
  simpl. unfold survives at 1. unfold qk, qo.
  rewrite !qs_matches_kind.
  destruct (key_match f l r) eqn:K; rewrite ?andb_true_r, ?andb_false_r.
  - destruct (kind_eqb k (row_kind r)) eqn:E; [discriminate|].
    rewrite (kind_eqb_other _ _ E). simpl. exact IH.
  - simpl. rewrite K. exact IH.
Qed.

End Tables.

(** Rows of one representation are the rows of the key that have it. *)
Lemma qs_rows_kind (k : Kind) (f : Z) (l : string) (s : Store) :
  qs_rows (mkQuery (Some k) f l) s
  = filter (fun r => kind_eqb k (row_kind r)) (rows_for s f l).
Proof.
  rewrite rows_for_filter. unfold qs_rows.
  induction (translation_table s) as [|r rows IH]; [reflexivity|].
  simpl. rewrite qs_matches_kind.
  destruct (key_match f l r); rewrite ?andb_true_r, ?andb_false_r; simpl;
    [destruct (kind_eqb k (row_kind r))|]; now rewrite IH.
Qed.

(** ** Writing: [merge] and [set_translation] on the store *)

Lemma set_translation_merge (f : Z) (l t : string) :
  set_translation f l t = merge (target t) f l t.
Proof.
  unfold set_translation, merge, target.
  destruct (len t <=? MAX_LENGTH); reflexivity.
Qed.

(** The two ways [merge] can go: with a row of the target representation
    the rows it matches get the new text; without one the rows of the other
    representation are deleted and the constructor call that follows
    raises. *)
Lemma merge_run (k : Kind) (f : Z) (l t : string) (s : Store) :
  merge k f l t s
  = if is_empty (qs_rows (mkQuery (Some k) f l) s)
    then (Raise FieldTypeError,
          with_translations s
            (filter (survives (mkQuery (Some (other k)) f l))
                    (translation_table s))
            (translation_seq s))
    else (Return tt,
          with_translations s
            (map (update_row (mkQuery (Some k) f l) t) (translation_table s))
            (translation_seq s)).
Proof.
  unfold merge, bind, qs_exists, qs_update, qs_delete, Translation_save.
  destruct (is_empty (qs_rows (mkQuery (Some k) f l) s)); reflexivity.
Qed.

(** [merge] leaves the rows of every other key as they are. *)
Lemma merge_frame (k : Kind) (f f' : Z) (l l' t : string) (s : Store) :
  (f', l') <> (f, l) ->
  rows_for (exec (merge k f l t) s) f' l' = rows_for s f' l'.
Proof.
  intros Hne. unfold exec. rewrite merge_run, !rows_for_filter.
  destruct (is_empty (qs_rows (mkQuery (Some k) f l) s)); simpl.
  - now apply (delete_other_key f l).
  - rewrite filter_update_same. now apply update_other_key.
Qed.

(** Without a row of the target representation [merge] raises and leaves
    the key without any row. *)
Lemma merge_insert_path (k : Kind) (f : Z) (l t : string) (s : Store) :
  qs_rows (mkQuery (Some k) f l) s = [] ->
  fst (merge k f l t s) = Raise FieldTypeError
  /\ rows_for (exec (merge k f l t) s) f l = [].
Proof.
  intros E. unfold exec. rewrite merge_run, E. simpl.
  split; [reflexivity|].
  rewrite rows_for_filter. simpl. now apply delete_clears_key.
Qed.

(** With a single row for the key, of the target representation, [merge]
    returns normally and the row has the new text. *)
Lemma merge_update_path (k : Kind) (f : Z) (l t : string) (s : Store)
      (r : TranslationRow) :
  rows_for s f l = [r] ->
  row_kind r = k ->
  fst (merge k f l t s) = Return tt
  /\ rows_for (exec (merge k f l t) s) f l = [set_text t r].
Proof.
  intros Hr Hk. unfold exec. rewrite merge_run.
  assert (Hm : qs_matches (mkQuery (Some k) f l) r = true).
  { rewrite qs_matches_kind.
    assert (Hin : In r (filter (key_match f l) (translation_table s)))
      by (rewrite <- rows_for_filter, Hr; now left).
    apply filter_In in Hin as [_ ->].
    rewrite andb_true_r. now apply kind_eqb_eq. }
  rewrite qs_rows_kind, Hr. simpl.
  rewrite qs_matches_kind in Hm. apply andb_true_iff in Hm as [Hkk Hkey].
  rewrite Hkk. simpl. split; [reflexivity|].
  rewrite rows_for_filter in *. simpl.
  rewrite filter_update_same, Hr. simpl.
  unfold update_row. now rewrite qs_matches_kind, Hkk, Hkey.
Qed.

(** Whatever its outcome, [merge] leaves no key with more than one row
    that had at most one. *)
Lemma merge_count (k : Kind) (f f' : Z) (l l' t : string) (s : Store) :
  (List.length (rows_for s f' l') <= 1)%nat ->
  (List.length (rows_for (exec (merge k f l t) s) f' l') <= 1)%nat.
Proof.
  intros Hlen. unfold exec. rewrite merge_run, !rows_for_filter in *.
  destruct (is_empty (qs_rows (mkQuery (Some k) f l) s)); simpl.
  - etransitivity; [apply delete_shrinks | exact Hlen].
  - now rewrite filter_update_same, length_map.
Qed.

(** ** Repeating a write *)

Lemma qs_matches_update_row (q q' : QuerySet) (t : string) (r : TranslationRow) :
  qs_matches q (update_row q' t r) = qs_matches q r.
Proof. unfold update_row. now destruct (qs_matches q' r). Qed.

Lemma update_row_idem (q : QuerySet) (t : string) (r : TranslationRow) :
  update_row q t (update_row q t r) = update_row q t r.
Proof.
  unfold update_row at 2. destruct (qs_matches q r) eqn:E.
  - unfold update_row. change (qs_matches q (set_text t r)) with (qs_matches q r).
    now rewrite E.
  - unfold update_row. now rewrite E.
Qed.

Lemma filter_update_matches (q : QuerySet) (t : string)
      (rows : list TranslationRow) :
  filter (qs_matches q) (map (update_row q t) rows)
  = map (update_row q t) (filter (qs_matches q) rows).
Proof.
  induction rows as [|r rows IH]; [reflexivity|].
  simpl. rewrite qs_matches_update_row.
  destruct (qs_matches q r); simpl; now rewrite IH.
Qed.

Lemma filter_nil_sub {A} (p q : A -> bool) (xs : list A) :
  filter p xs = [] -> filter p (filter q xs) = [].
Proof.
  induction xs as [|x xs IH]; [reflexivity|].
  simpl. destruct (p x) eqn:P; [discriminate|].
  intros H. destruct (q x); simpl; rewrite ?P; now apply IH.
Qed.

Lemma filter_idem {A} (q : A -> bool) (xs : list A) :
  filter q (filter q xs) = filter q xs.
Proof.
  induction xs as [|x xs IH]; [reflexivity|].
  simpl. destruct (q x) eqn:Q; simpl; rewrite ?Q, IH; reflexivity.
Qed.

Lemma merge_idempotent (k : Kind) (f : Z) (l t : string) (s : Store) :
  merge k f l t (exec (merge k f l t) s)
  = (fst (merge k f l t s), exec (merge k f l t) s).
Proof.
  unfold exec. rewrite (merge_run k f l t s).
  set (qk := mkQuery (Some k) f l).
  set (qo := mkQuery (Some (other k)) f l).
  destruct (is_empty (qs_rows qk s)) eqn:E.
  - apply is_empty_true in E. unfold qs_rows in E.
    pose proof (filter_nil_sub _ (survives qo) _ E) as E'.
    cbn [fst snd]. rewrite merge_run. fold qk qo. unfold qs_rows. simpl.
    rewrite E'. simpl. rewrite filter_idem. reflexivity.
  - cbn [fst snd]. rewrite merge_run. fold qk qo. unfold qs_rows in *. simpl.
    rewrite filter_update_matches.
    destruct (filter (qs_matches qk) (translation_table s)) as [|r rs];
      [discriminate|].
    simpl. f_equal. unfold with_translations. simpl. f_equal.
    rewrite map_map. apply map_ext. intros x. apply update_row_idem.
Qed.

(** ** Creating: [with_translation] *)

(** [with_translation] saves the new translatable and then raises in the
    [save()] of the translation it built; no translation is stored. *)
Lemma with_translation_run (l t : string) (s : Store) :
  with_translation l t s
  = (Raise FieldTypeError,
     mkStore (translatable_table s ++ [translatable_seq s])
             (translatable_seq s + 1)
             (translation_table s) (translation_seq s)
             (player_table s) (statement_table s) (statement_seq s)).
Proof. reflexivity. Qed.

Lemma run_pair {A} (c : ORM A) (s : Store) : c s = (fst (c s), exec c s).
Proof. unfold exec. now destruct (c s). Qed.

(** ** Claims about the read path *)

Lemma is_empty_false {A} (l : list A) : l <> [] -> is_empty l = false.
Proof. destruct l; [congruence | reflexivity]. Qed.

(** C6 (no cross-language fallback): when a translatable has no stored row in
    the preferred display language [LOCALE] (de_de), [Translation.get]
    returns [None] and leaves the store alone, whatever rows the translatable
    has in other languages. *)
Theorem get_no_fallback (s : Store) (f : Z) :
  rows_for s f LOCALE = [] ->
  Translation_get f s = (Return None, s).
Proof.
  intros H. rewrite Translation_get_spec, H. reflexivity.
Qed.

Lemma get_no_fallback_witness :
  let s := mkStore [1] 2 [mkRow 1 1 "en_US" Short "Hello"] 2 [] [] 1 in
  rows_for s 1 "en_US" <> [] /\ Translation_get 1 s = (Return None, s).
Proof.
  split.
  - vm_compute. discriminate.
  - apply (get_no_fallback
             (mkStore [1] 2 [mkRow 1 1 "en_US" Short "Hello"] 2 [] [] 1) 1).
    reflexivity.
Defined.

(** C7, at a stored text of 70 characters: the claim expects the first 60
    characters followed by two dots, but [Translatable.__str__] raises
    [AttributeError], because [Translation.get] reads [translation] from an
    instance of the parent model.  Only for a translatable without
    preferred-language row does [__str__] return, and then the sentinel
    ['Unused translatable.']. *)
Theorem str_raises_on_stored_text :
  let text := "Wer A sagt, muss auch B sagen, und wer B sagt, muss auch C sagen. Ende" in
  let s := mkStore [1; 2] 3 [mkRow 1 1 "de_de" Short text] 2 [] [] 1 in
  len text = 70
  /\ truncate text TRUNCATE_AT_LENGTH = slice_to text 60 ++ ".."
  /\ Translatable_str 1 s = (Raise AttributeError, s)
  /\ Translatable_str 2 s = (Return "Unused translatable.", s).
Proof. cbv zeta. repeat split. Qed.

(** C9, at a stored empty text: the claim expects the sentinel, but
    [Translatable.__str__] raises [AttributeError] before it can test the
    text, for the same reason as for any other stored text. *)
Theorem str_raises_on_empty_text :
  let s := mkStore [1] 2 [mkRow 1 1 "de_de" Short EmptyString] 2 [] [] 1 in
  rows_for s 1 LOCALE = [mkRow 1 1 "de_de" Short EmptyString]
  /\ Translation_get 1 s = (Raise AttributeError, s)
  /\ Translatable_str 1 s = (Raise AttributeError, s).
Proof. cbv zeta. repeat split. Qed.

(** C10: [truncate s 60] returns [s] unchanged, without ellipsis, when [s]
    has at most 60 characters; only a longer [s] is cut to its first 60
    characters and gets the two dots; so a truncated text, and every string
    [Translatable.__str__] returns, has at most 62 characters. *)
Theorem truncate_boundary (s : string) :
  (len s <= 60 -> truncate s TRUNCATE_AT_LENGTH = s)
  /\ (truncate s TRUNCATE_AT_LENGTH <> s ->
      60 < len s /\ truncate s TRUNCATE_AT_LENGTH = slice_to s 60 ++ "..")
  /\ len (truncate s TRUNCATE_AT_LENGTH) <= 62
  /\ (forall st f out st',
        Translatable_str f st = (Return out, st') -> len out <= 62).
Proof.
  repeat split.
  - apply truncate_short.
  - destruct (Z_le_gt_dec (len s) 60) as [Hle|Hgt]; [|lia].
    exfalso. apply H. now apply truncate_short.
  - destruct (Z_le_gt_dec (len s) 60) as [Hle|Hgt].
    + exfalso. apply H. now apply truncate_short.
    + apply truncate_long. unfold TRUNCATE_AT_LENGTH. lia.
  - pose proof (len_truncate_le s TRUNCATE_AT_LENGTH).
    unfold TRUNCATE_AT_LENGTH in *. lia.
  - intros st f out st' H. rewrite Translatable_str_spec in H.
    destruct (is_empty (rows_for st f LOCALE)); [|discriminate].
    injection H as <- _. vm_compute. discriminate.
Qed.

Lemma truncate_boundary_witness :
  truncate "Hello" TRUNCATE_AT_LENGTH = "Hello".
Proof.
  apply (proj1 (truncate_boundary "Hello")). vm_compute. discriminate.
Defined.

(** ** Claims about the write path *)

(** C1, as far as the design goes: [Translation.get] takes no language and
    reads the rows of the preferred language [LOCALE] (de_de) only.
    [set_translation] for any other language leaves the outcome of
    [Translation.get] as it was, and for a translatable without de_de row
    that outcome is [None], whatever was set for the other language. *)
Theorem get_reads_preferred_only (s : Store) (f f' : Z) (l t : string) :
  l <> LOCALE ->
  let s1 := exec (set_translation f' l t) s in
  fst (Translation_get f s1) = fst (Translation_get f s)
  /\ (rows_for s f LOCALE = [] -> Translation_get f s1 = (Return None, s1)).
Proof.
  intros Hl. cbv zeta.
  assert (F : rows_for (exec (set_translation f' l t) s) f LOCALE
              = rows_for s f LOCALE)
    by (rewrite set_translation_merge; apply merge_frame; congruence).
  rewrite !Translation_get_spec, F. split; [reflexivity|].
  now intros ->.
Qed.

Lemma get_reads_preferred_only_witness :
  let s := mkStore [1] 2 [mkRow 1 1 "en_US" Short "Hi"] 2 [] [] 1 in
  let s1 := exec (set_translation 1 "en_US" "Hello") s in
  Translation_get 1 s1 = (Return None, s1).
Proof.
  cbv zeta.
  refine (proj2 (get_reads_preferred_only
            (mkStore [1] 2 [mkRow 1 1 "en_US" Short "Hi"] 2 [] [] 1)
            1 1 "en_US" "Hello" _) eq_refl).
  discriminate.
Defined.

(** C1 as stated fails for a supported language other than de_de: the
    English text is set (the existing row is updated), and the only read
    the code has does not return it. *)
Lemma get_after_set_counterexample :
  let s := mkStore [1] 2 [mkRow 1 1 "en_US" Short "Hi"] 2 [] [] 1 in
  let s1 := exec (set_translation 1 "en_US" "Hello") s in
  supported "en_US" = true
  /\ set_translation 1 "en_US" "Hello" s = (Return tt, s1)
  /\ rows_for s1 1 "en_US" = [mkRow 1 1 "en_US" Short "Hello"]
  /\ Translation_get 1 s1 <> (Return (Some "Hello"), s1).
Proof.
  cbv zeta. repeat split. vm_compute. discriminate.
Qed.

(** C2, at a migration in each direction: a translatable holds one short
    de_de row and is set to a text of 150 characters, or holds one long row
    and is set to a short text.  The claim expects one row of the new
    representation with the new text; [set_translation] deletes the old row
    and then raises [TypeError] in the [save()] of the new one, so that the
    translatable is left without any row for the language. *)
Theorem migration_loses_translation :
  let x150 := String.concat EmptyString (repeat "x" 150) in
  let s := mkStore [1] 2 [mkRow 1 1 "de_de" Short "short"] 2 [] [] 1 in
  let s' := mkStore [1] 2 [mkRow 1 1 "de_de" Long x150] 2 [] [] 1 in
  len "short" <= 100
  /\ len x150 > 100
  /\ fst (set_translation 1 "de_de" x150 s) = Raise FieldTypeError
  /\ rows_for (exec (set_translation 1 "de_de" x150) s) 1 "de_de" = []
  /\ fst (set_translation 1 "de_de" "short" s') = Raise FieldTypeError
  /\ rows_for (exec (set_translation 1 "de_de" "short") s') 1 "de_de" = [].
Proof. cbv zeta. repeat split; vm_compute; discriminate. Qed.

Lemma one_row_call (c : Call) (s : Store) :
  one_row s -> one_row (run_call c s).
Proof.
  intros H. destruct c as [l t| |f l t]; simpl.
  - intros f' l'. exact (H f' l').
  - intros f' l'. exact (H f' l').
  - rewrite set_translation_merge. intros f' l'. apply merge_count, H.
Qed.

Lemma one_row_calls (cs : list Call) (s : Store) :
  one_row s -> one_row (run_calls cs s).
Proof.
  revert s. induction cs as [|c cs IH]; intros s H; [exact H|].
  simpl. apply IH. now apply one_row_call.
Qed.

(** C3 (one-row invariant): from a store in which every (translatable,
    language) pair has at most one row, every sequence of
    [with_translation], [Translatable().save()] and [set_translation]
    calls, whatever their outcomes, leads to a store in which every pair has
    at most one row, counting both representations together. *)
Theorem one_row_invariant (s : Store) (cs : list Call) :
  one_row s ->
  forall f l, (List.length (rows_for (run_calls cs s) f l) <= 1)%nat.
Proof.
  intros H. exact (one_row_calls cs s H).
Qed.

Lemma one_row_invariant_witness :
  let x150 := String.concat EmptyString (repeat "x" 150) in
  let s := mkStore [1; 2] 3
             [mkRow 1 1 "de_de" Short "kurz"; mkRow 2 2 "en_US" Short "Hello"]
             3 [] [] 1 in
  let cs := [CreateWithTranslation "en_US" "Hello"; CreateEmpty;
             SetTranslation 1 "de_de" "kuerzer"; SetTranslation 2 "en_US" x150;
             SetTranslation 1 "en_US" "short"; SetTranslation 9 "de_de" "?"] in
  (List.length (rows_for (run_calls cs s) 1 "de_de") <= 1)%nat.
Proof.
  cbv zeta. apply one_row_invariant.
  intros f l. rewrite rows_for_filter. simpl.
  destruct (key_match f l (mkRow 1 1 "de_de" Short "kurz")) eqn:K1;
    destruct (key_match f l (mkRow 2 2 "en_US" Short "Hello")) eqn:K2;
    simpl; try lia.
  apply key_match_iff in K1 as [K1 _]. apply key_match_iff in K2 as [K2 _].
  simpl in K1, K2. lia.
Defined.

(** C4, as the code has it: no entry point looks at the set of supported
    languages.  For a language code outside it, [set_translation] on a key
    that holds a single row of the representation the text asks for returns
    normally and has replaced the text of that row. *)
Theorem unsupported_language_is_updated
        (s : Store) (f : Z) (l t : string) (r : TranslationRow) :
  supported l = false ->
  rows_for s f l = [r] ->
  row_kind r = target t ->
  let s1 := exec (set_translation f l t) s in
  set_translation f l t s = (Return tt, s1)
  /\ rows_for s1 f l = [set_text t r].
Proof.
  intros _ Hr Hk. cbv zeta.
  rewrite (run_pair (set_translation f l t) s) at 1.
  rewrite set_translation_merge.
  destruct (merge_update_path (target t) f l t s r Hr Hk) as [-> H].
  split; [reflexivity | exact H].
Qed.

Lemma unsupported_language_is_updated_witness :
  let s := mkStore [1] 2 [mkRow 1 1 "fr_FR" Short "Salut"] 2 [] [] 1 in
  rows_for (exec (set_translation 1 "fr_FR" "Bonjour") s) 1 "fr_FR"
  = [mkRow 1 1 "fr_FR" Short "Bonjour"].
Proof.
  cbv zeta.
  exact (proj2 (unsupported_language_is_updated
                  (mkStore [1] 2 [mkRow 1 1 "fr_FR" Short "Salut"] 2 [] [] 1)
                  1 "fr_FR" "Bonjour" (mkRow 1 1 "fr_FR" Short "Salut")
                  eq_refl eq_refl eq_refl)).
Defined.

(** C4 as stated fails: with a language code outside the supported set
    [set_translation] returns normally and has changed the store, and
    [with_translation] has saved a translatable before it raises, with an
    error that has nothing to do with the language. *)
Lemma invalid_language_counterexample :
  let s := mkStore [1] 2 [mkRow 1 1 "fr_FR" Short "Salut"] 2 [] [] 1 in
  supported "fr_FR" = false
  /\ fst (set_translation 1 "fr_FR" "Bonjour" s) = Return tt
  /\ exec (set_translation 1 "fr_FR" "Bonjour") s <> s
  /\ with_translation "fr_FR" "Bonjour" empty_store
     = (Raise FieldTypeError, mkStore [1] 2 [] 1 [] [] 1)
  /\ with_translation "de_de" "Bonjour" empty_store
     = (Raise FieldTypeError, mkStore [1] 2 [] 1 [] [] 1).
Proof.
  cbv zeta. repeat split. vm_compute. discriminate.
Qed.

(** C5 (idempotence): in every store, a second [set_translation] with the
    same translatable, language and text has the outcome of the first and
    leaves the store exactly as the first left it. *)
Theorem set_translation_idempotent (s : Store) (f : Z) (l t : string) :
  set_translation f l t (exec (set_translation f l t) s)
  = (fst (set_translation f l t s), exec (set_translation f l t) s)
  /\ exec (set_translation f l t ;;; set_translation f l t) s
     = exec (set_translation f l t) s.
Proof.
  rewrite set_translation_merge.
  pose proof (merge_idempotent (target t) f l t s) as H.
  split; [exact H|].
  unfold exec at 1. unfold bind.
  rewrite (run_pair (merge (target t) f l t) s).
  destruct (fst (merge (target t) f l t s)); [|reflexivity].
  now rewrite H.
Qed.

(** ** The editing workflow: [StatementAdmin.save_model] *)

(** On creation [save_model] calls [with_translation] with the submitted
    language and original text, and saves the statement with the
    translatable it gets back as its content. *)
Lemma save_model_create (statement : Statement) (form : Form)
      (language orig_content : string) (s : Store) :
  lookup "language" (cleaned_data form) = Some language ->
  lookup "orig_content" (cleaned_data form) = Some orig_content ->
  save_model statement form false s
  = (content <- with_translation language orig_content ;;
     Statement_save (mkStatement (st_pk statement) (st_player statement)
                                 (st_language statement) (Some content))) s.
Proof.
  intros Hl Hc. unfold save_model, getitem, bind. simpl.
  rewrite Hl, Hc. unfold ret.
  destruct (with_translation language orig_content s) as [[c|e] s'];
    reflexivity.
Qed.

Lemma content_not_a_form_field (form : Form) :
  is_StatementAdminForm form -> str_in "content" (changed_data form) = false.
Proof.
  intros H. destruct (str_in "content" (changed_data form)) eqn:E;
    [|reflexivity].
  unfold str_in in E. apply existsb_exists in E as [x [Hx E]].
  apply String.eqb_eq in E. subst x. apply H in Hx. simpl in Hx.
  repeat (destruct Hx as [Hx|Hx]; [discriminate|]). destruct Hx.
Qed.

Lemma Statement_save_translations (statement : Statement) (s : Store) :
  translation_table (exec (Statement_save statement) s) = translation_table s
  /\ translatable_table (exec (Statement_save statement) s)
     = translatable_table s.
Proof.
  unfold exec, Statement_save.
  destruct (Statement_refs_ok statement s); [|now split].
  destruct (st_pk statement) as [pk|]; [destruct (existsb _ _)|]; now split.
Qed.

(** C8, at a concrete edit: a stored statement whose content reads
    ['Alte Fassung'] is edited with a form of class [StatementAdminForm]
    whose [orig_content] changed to ['Neue Fassung'].  The claim expects a
    call of [set_translation], which would replace the text of the row;
    [save_model] leaves the translations as they were. *)
Theorem save_model_drops_correction :
  let s0 := mkStore [1] 2 [mkRow 1 1 "de_de" Short "Alte Fassung"] 2 [1]
                    [mkStatement (Some 1) 1 "de_de" (Some 1)] 2 in
  let statement := mkStatement (Some 1) 1 "de_de" (Some 1) in
  let form := mkForm [("language", "de_de"); ("orig_content", "Neue Fassung")]
                     ["orig_content"] in
  is_StatementAdminForm form
  /\ lookup "orig_content" (cleaned_data form) = Some "Neue Fassung"
  /\ rows_for (exec (set_translation 1 "de_de" "Neue Fassung") s0) 1 "de_de"
     = [mkRow 1 1 "de_de" Short "Neue Fassung"]
  /\ translation_table (exec (save_model statement form true) s0)
     = [mkRow 1 1 "de_de" Short "Alte Fassung"].
Proof.
  cbv zeta. repeat split.
  intros x [<-|[]]. simpl. tauto.
Qed.

(** ** More about [truncate] *)

Lemma prefix_of_append (a b : string) :
  String.substring 0 (String.length a) (a ++ b) = a.
Proof.
  induction a as [|c a IH]; simpl; [now destruct b | now rewrite IH].
Qed.

Lemma slice_to_append (a b : string) (n : Z) :
  len a = n -> slice_to (a ++ b) n = a.
Proof.
  intros H. unfold slice_to.
  destruct (Z.ltb_spec n 0) as [Hneg|_];
    [pose proof (len_nonneg a); lia|].
  subst n. unfold len. rewrite Nat2Z.id. apply prefix_of_append.
Qed.

(** Truncating twice at the same non-negative length is truncating once. *)
Theorem truncate_idempotent (s : string) (n : Z) :
  0 <= n -> truncate (truncate s n) n = truncate s n.
Proof.
  intros Hn. destruct (Z_le_gt_dec (len s) n) as [Hle|Hgt].
  - rewrite (truncate_short s n Hle). now apply truncate_short.
  - rewrite (truncate_long s n) by lia.
    pose proof (len_slice_to s n Hn ltac:(lia)) as Hlen.
    rewrite truncate_long by (rewrite len_append, Hlen; change (len "..") with 2; lia).
    now rewrite slice_to_append.
Qed.

Lemma truncate_idempotent_witness :
  let s := String.concat EmptyString (repeat "ab" 40) in
  truncate (truncate s 60) 60 = truncate s 60.
Proof.
  cbv zeta.
  apply (truncate_idempotent (String.concat EmptyString (repeat "ab" 40)) 60).
  lia.
Defined.

(** The exact length of a truncated string: the length of the input when
    it fits, and the bound plus two otherwise, so a string one character
    over the bound comes back one character longer than it was. *)
Theorem truncate_length (s : string) (n : Z) :
  0 <= n ->
  len (truncate s n) = (if len s <=? n then len s else n + 2)
  /\ (len s = n + 1 -> len (truncate s n) = len s + 1).
Proof.
  intros Hn.
  assert (L : n < len s -> len (truncate s n) = n + 2).
  { intros H. rewrite truncate_long by exact H.
    rewrite len_append, len_slice_to by lia. reflexivity. }
  split.
  - destruct (Z.leb_spec (len s) n) as [Hle|Hgt].
    + now rewrite truncate_short.
    + now apply L.
  - intros H. rewrite L; lia.
Qed.

Lemma truncate_length_witness :
  len (truncate "abc" 2) = len "abc" + 1.
Proof.
  apply (proj2 (truncate_length "abc" 2 ltac:(lia))). reflexivity.
Defined.

(** ** More about the read path *)

(** The outcome of the two reads is decided by the preferred-language rows
    of the translatable alone, and neither read writes.  Without such a row
    [Translation.get] returns [None] and [Translatable.__str__] the
    sentinel; with one, both raise [AttributeError], whatever text the row
    holds. *)
Theorem reads_outcome (f : Z) (s : Store) :
  (rows_for s f LOCALE = [] ->
   Translation_get f s = (Return None, s)
   /\ Translatable_str f s = (Return "Unused translatable.", s))
  /\ (rows_for s f LOCALE <> [] ->
      Translation_get f s = (Raise AttributeError, s)
      /\ Translatable_str f s = (Raise AttributeError, s)).
Proof.
  rewrite Translation_get_spec, Translatable_str_spec. split.
  - intros ->. now split.
  - intros H. rewrite (is_empty_false _ H). now split.
Qed.

Lemma reads_outcome_witness :
  let s := mkStore [1] 2 [mkRow 1 1 "de_de" Short "Kanzlerin"] 2 [] [] 1 in
  Translation_get 1 s = (Raise AttributeError, s)
  /\ Translatable_str 1 s = (Raise AttributeError, s).
Proof.
  cbv zeta.
  apply (proj2 (reads_outcome 1
           (mkStore [1] 2 [mkRow 1 1 "de_de" Short "Kanzlerin"] 2 [] [] 1))).
  vm_compute. discriminate.
Defined.

(** ** More about creating and writing *)

(** [with_translation] never returns: for every language and text it saves
    a new translatable and then raises [TypeError] in the [save()] of the
    translation, so that the store gains one translatable without any
    translation and nothing else changes. *)
Theorem with_translation_raises (l t : string) (s : Store) :
  let s1 := exec (with_translation l t) s in
  with_translation l t s = (Raise FieldTypeError, s1)
  /\ translatable_table s1
     = (translatable_table s ++ [translatable_seq s])%list
  /\ translation_table s1 = translation_table s
  /\ statement_table s1 = statement_table s
  /\ forall l', rows_for s1 (translatable_seq s) l'
                = rows_for s (translatable_seq s) l'.
Proof.
  cbv zeta. unfold exec. rewrite with_translation_run. now repeat split.
Qed.

(** [set_translation] touches the rows of its own (translatable, language)
    pair only: the rows of every other pair, the translatables and the
    statements stay as they were, whatever the outcome of the call. *)
Theorem set_translation_frame (s : Store) (f f' : Z) (l l' t : string) :
  (f', l') <> (f, l) ->
  let s1 := exec (set_translation f l t) s in
  rows_for s1 f' l' = rows_for s f' l'
  /\ translatable_table s1 = translatable_table s
  /\ translatable_seq s1 = translatable_seq s
  /\ statement_table s1 = statement_table s.
Proof.
  intros Hne. cbv zeta. rewrite set_translation_merge. split.
  - now apply merge_frame.
  - unfold exec. rewrite merge_run.
    destruct (is_empty _); now repeat split.
Qed.

Lemma set_translation_frame_witness :
  let s := mkStore [1] 2
             [mkRow 1 1 "en_US" Short "Hello"; mkRow 2 1 "de_de" Long "Hallo"]
             3 [] [] 1 in
  rows_for (exec (set_translation 1 "de_de" "Hallo") s) 1 "en_US"
  = rows_for s 1 "en_US".
Proof.
  cbv zeta.
  refine (proj1 (set_translation_frame
            (mkStore [1] 2
               [mkRow 1 1 "en_US" Short "Hello"; mkRow 2 1 "de_de" Long "Hallo"]
               3 [] [] 1)
            1 1 "de_de" "en_US" "Hallo" _)).
  discriminate.
Defined.

(** The two outcomes of [set_translation].  When the key holds a single
    row, of the representation the new text asks for, the call returns
    normally and the row keeps its primary key and gets the new text.  When
    the key holds no row of that representation, the call raises
    [TypeError] and leaves the key without any row: a row of the other
    representation is deleted and nothing is stored in its place. *)
Theorem set_translation_cases (s : Store) (f : Z) (l t : string) :
  let s1 := exec (set_translation f l t) s in
  (forall r, rows_for s f l = [r] -> row_kind r = target t ->
     set_translation f l t s = (Return tt, s1)
     /\ rows_for s1 f l = [set_text t r]
     /\ row_id (set_text t r) = row_id r)
  /\ (qs_rows (mkQuery (Some (target t)) f l) s = [] ->
      set_translation f l t s = (Raise FieldTypeError, s1)
      /\ rows_for s1 f l = []).
Proof.
  cbv zeta. split.
  - intros r Hr Hk.
    rewrite (run_pair (set_translation f l t) s) at 1.
    rewrite set_translation_merge.
    destruct (merge_update_path (target t) f l t s r Hr Hk) as [-> H].
    now repeat split.
  - intros E.
    rewrite (run_pair (set_translation f l t) s) at 1.
    rewrite set_translation_merge.
    destruct (merge_insert_path (target t) f l t s E) as [-> H].
    now split.
Qed.

Lemma set_translation_cases_witness :
  let s := mkStore [1] 2 [mkRow 1 1 "de_de" Long "Hallo"] 2 [] [] 1 in
  let s1 := exec (set_translation 1 "de_de" "Hallo Welt") s in
  set_translation 1 "de_de" "Hallo Welt" s = (Raise FieldTypeError, s1)
  /\ rows_for s1 1 "de_de" = [].
Proof.
  cbv zeta.
  apply (proj2 (set_translation_cases
           (mkStore [1] 2 [mkRow 1 1 "de_de" Long "Hallo"] 2 [] [] 1)
           1 "de_de" "Hallo Welt")).
  reflexivity.
Defined.

(** ** Representation and text length *)

Lemma kinds_fit_merge (f : Z) (l t : string) (s : Store) :
  kinds_fit s -> kinds_fit (exec (merge (target t) f l t) s).
Proof.
  intros H. unfold exec. rewrite merge_run.
  destruct (is_empty _); simpl; intros r Hr; simpl in Hr.
  - apply filter_In in Hr as [Hr _]. now apply H.
  - apply in_map_iff in Hr as [r0 [<- Hr0]].
    unfold update_row.
    destruct (qs_matches _ r0) eqn:M; [|now apply H].
    rewrite qs_matches_kind in M. apply andb_true_iff in M as [Hk _].
    apply kind_eqb_eq in Hk. simpl. now rewrite <- Hk.
Qed.

Lemma kinds_fit_call (c : Call) (s : Store) :
  kinds_fit s -> kinds_fit (run_call c s).
Proof.
  intros H. destruct c as [l t| |f l t]; simpl.
  - exact H.
  - exact H.
  - rewrite set_translation_merge. now apply kinds_fit_merge.
Qed.

(** From a store in which every row is stored in the representation its
    text length asks for, every sequence of [with_translation],
    [Translatable().save()] and [set_translation] calls leads to a store in
    which every short row holds at most 100 characters and every long row
    more than 100. *)
Theorem kinds_fit_invariant (s : Store) (cs : list Call) :
  kinds_fit s ->
  forall r, In r (translation_table (run_calls cs s)) ->
    (row_kind r = Short -> len (row_translation r) <= 100)
    /\ (row_kind r = Long -> len (row_translation r) > 100).
Proof.
  intros H.
  assert (K : kinds_fit (run_calls cs s)).
  { revert s H. induction cs as [|c cs IH]; intros s H; [exact H|].
    simpl. apply IH. now apply kinds_fit_call. }
  intros r Hr. specialize (K r Hr). unfold target, MAX_LENGTH in K.
  destruct (Z.leb_spec (len (row_translation r)) 100); rewrite K;
    split; intros; (discriminate || lia).
Qed.

Lemma kinds_fit_invariant_witness :
  let x150 := String.concat EmptyString (repeat "x" 150) in
  let s := mkStore [1] 2
             [mkRow 1 1 "de_de" Short "kurz"; mkRow 2 1 "en_US" Long x150]
             3 [] [] 1 in
  let cs := [SetTranslation 1 "de_de" "kuerzer";
             CreateWithTranslation "de_de" "neu";
             SetTranslation 1 "en_US" "short"] in
  let r := mkRow 1 1 "de_de" Short "kuerzer" in
  In r (translation_table (run_calls cs s))
  /\ len (row_translation r) <= 100.
Proof.
  cbv zeta.
  assert (Hin : In (mkRow 1 1 "de_de" Short "kuerzer")
                   (translation_table
                      (run_calls
                         [SetTranslation 1 "de_de" "kuerzer";
                          CreateWithTranslation "de_de" "neu";
                          SetTranslation 1 "en_US" "short"]
                         (mkStore [1] 2
                            [mkRow 1 1 "de_de" Short "kurz";
                             mkRow 2 1 "en_US" Long
                               (String.concat EmptyString (repeat "x" 150))]
                            3 [] [] 1))))
    by (left; reflexivity).
  split; [exact Hin|].
  refine (proj1 (kinds_fit_invariant _ _ _ _ Hin) eq_refl).
  intros r [<-|[<-|[]]]; reflexivity.
Defined.

(** ** More about [save_model] *)

(** Creating a statement through [save_model] never succeeds: with the
    language and the original text in the form's cleaned data, the call
    raises the [TypeError] of [with_translation]; a translatable without
    translation has been saved by then, and the statement has not. *)
Theorem save_model_create_raises
        (statement : Statement) (form : Form) (l t : string) (s : Store) :
  lookup "language" (cleaned_data form) = Some l ->
  lookup "orig_content" (cleaned_data form) = Some t ->
  let s1 := exec (save_model statement form false) s in
  save_model statement form false s = (Raise FieldTypeError, s1)
  /\ translatable_table s1
     = (translatable_table s ++ [translatable_seq s])%list
  /\ translation_table s1 = translation_table s
  /\ statement_table s1 = statement_table s.
Proof.
  intros Hl Ht. cbv zeta. unfold exec.
  rewrite (save_model_create statement form l t s Hl Ht).
  unfold bind. rewrite with_translation_run. now repeat split.
Qed.

Lemma save_model_create_raises_witness :
  let form := mkForm [("language", "de_de"); ("orig_content", "Wir schaffen das.")]
                     ["language"; "orig_content"] in
  let s := mkStore [] 1 [] 1 [1] [] 1 in
  statement_table (exec (save_model (mkStatement None 1 "de_de" None) form false) s)
  = statement_table s.
Proof.
  cbv zeta.
  exact (proj2 (proj2 (proj2 (save_model_create_raises
           (mkStatement None 1 "de_de" None)
           (mkForm [("language", "de_de"); ("orig_content", "Wir schaffen das.")]
                   ["language"; "orig_content"])
           "de_de" "Wir schaffen das." (mkStore [] 1 [] 1 [1] [] 1)
           eq_refl eq_refl)))).
Defined.

(** On creation, a form whose cleaned data lack the language or the
    original text makes [save_model] raise [KeyError] before anything is
    written. *)
Theorem save_model_create_missing_key
        (statement : Statement) (form : Form) (s : Store) :
  lookup "language" (cleaned_data form) = None
  \/ lookup "orig_content" (cleaned_data form) = None ->
  save_model statement form false s = (Raise KeyError, s).
Proof.
  intros H. unfold save_model, bind, getitem. simpl.
  destruct (lookup "language" (cleaned_data form)) as [l|]; [|reflexivity].
  destruct H as [H|H]; [discriminate|]. rewrite H. reflexivity.
Qed.

Lemma save_model_create_missing_key_witness :
  save_model (mkStatement None 1 "de_de" None)
             (mkForm [("language", "de_de")] ["language"]) false empty_store
  = (Raise KeyError, empty_store).
Proof.
  apply (save_model_create_missing_key (mkStatement None 1 "de_de" None)
           (mkForm [("language", "de_de")] ["language"]) empty_store).
  right. reflexivity.
Defined.

(** On an edit, [save_model] with a form of class [StatementAdminForm]
    writes no translation and no translatable, whatever the form holds and
    whatever the outcome of saving the statement. *)
Theorem save_model_edit_writes_no_translation
        (statement : Statement) (form : Form) (s : Store) :
  is_StatementAdminForm form ->
  translation_table (exec (save_model statement form true) s)
  = translation_table s
  /\ translatable_table (exec (save_model statement form true) s)
     = translatable_table s.
Proof.
  intros H.
  assert (E : save_model statement form true s = Statement_save statement s).
  { unfold save_model, bind. simpl.
    now rewrite (content_not_a_form_field form H). }
  unfold exec at 1 2. rewrite E. apply Statement_save_translations.
Qed.

Lemma save_model_edit_writes_no_translation_witness :
  let s := mkStore [1] 2 [mkRow 1 1 "de_de" Short "Alte Fassung"] 2 [1]
                   [mkStatement (Some 1) 1 "de_de" (Some 1)] 2 in
  let statement := mkStatement (Some 1) 1 "de_de" (Some 1) in
  let form := mkForm [("language", "de_de"); ("orig_content", "Neue Fassung")]
                     ["orig_content"; "date"] in
  translation_table (exec (save_model statement form true) s)
  = translation_table s.
Proof.
  cbv zeta.
  refine (proj1 (save_model_edit_writes_no_translation
            (mkStatement (Some 1) 1 "de_de" (Some 1))
            (mkForm [("language", "de_de"); ("orig_content", "Neue Fassung")]
                    ["orig_content"; "date"])
            (mkStore [1] 2 [mkRow 1 1 "de_de" Short "Alte Fassung"] 2 [1]
                     [mkStatement (Some 1) 1 "de_de" (Some 1)] 2)
            _)).
  intros x [<-|[<-|[]]]; simpl; tauto.
Defined.

(** ** Printing roles, topics, statements and publications *)

(** [str] of a role or a topic never yields a string.  Without a
    preferred-language row for the name or headline, [__str__] returns
    [None] and [str] raises [TypeError]; with one, [__str__] itself raises
    the [AttributeError] of [Translation.get]. *)
Theorem str_of_name_outcome (s : Store) (name description : Z) :
  (rows_for s name LOCALE = [] ->
   Role_str (mkRole name) s = (Return VNone, s)
   /\ str_of_Role (mkRole name) s = (Return TypeError, s)
   /\ str_of_Topic (mkTopic name description) s = (Return TypeError, s))
  /\ (rows_for s name LOCALE <> [] ->
      str_of_Role (mkRole name) s = (Raise AttributeError, s)
      /\ str_of_Topic (mkTopic name description) s
         = (Raise AttributeError, s)).
Proof.
  unfold str_of_Role, str_of_Topic, Role_str, Topic_str, bind. simpl.
  rewrite Translation_get_spec. split.
  - intros ->. now repeat split.
  - intros H. rewrite (is_empty_false _ H). now split.
Qed.

Lemma str_of_name_outcome_witness :
  let s := mkStore [1] 2 [mkRow 1 1 "de_de" Short "Kanzlerin"] 2 [] [] 1 in
  str_of_Role (mkRole 1) s = (Raise AttributeError, s).
Proof.
  cbv zeta.
  refine (proj1 (proj2 (str_of_name_outcome
            (mkStore [1] 2 [mkRow 1 1 "de_de" Short "Kanzlerin"] 2 [] [] 1)
            1 1) _)).
  vm_compute. discriminate.
Defined.

(** [Statement.__str__] never yields a string either.  Without a
    preferred-language row for the content it raises [TypeError], because
    [truncate] is applied to [None]; with one it raises the
    [AttributeError] of [Translation.get]. *)
Theorem Statement_str_cases (self : StatementView) (s : Store) :
  (rows_for s (sv_content self) LOCALE = [] ->
   Statement_str self s = (Return TypeError, s))
  /\ (rows_for s (sv_content self) LOCALE <> [] ->
      Statement_str self s = (Raise AttributeError, s)).
Proof.
  unfold Statement_str, bind. rewrite Translation_get_spec. split.
  - now intros ->.
  - intros H. now rewrite (is_empty_false _ H).
Qed.

Lemma Statement_str_cases_witness :
  let s := mkStore [1] 2 [mkRow 1 1 "en_US" Short "Yes we can."] 2 [] [] 1 in
  Statement_str (mkStatementView (mkPlayer "Obama") 1 "None" "2008-01-08") s
  = (Return TypeError, s).
Proof.
  cbv zeta.
  apply (proj1 (Statement_str_cases
           (mkStatementView (mkPlayer "Obama") 1 "None" "2008-01-08")
           (mkStore [1] 2 [mkRow 1 1 "en_US" Short "Yes we can."] 2 [] [] 1))).
  reflexivity.
Defined.

(** [Publication.__str__] raises [TypeError] for every publication: it
    hands the [Translatable] of the statement to [truncate], which needs a
    length. *)
Theorem Publication_str_fails (self : PublicationView) :
  Publication_str self = TypeError.
Proof. reflexivity. Qed.

(** ** [Engagement.save] *)

Lemma date_lt_asym (a b : Date) : date_lt a b = true -> date_lt b a = false.
Proof.
  unfold date_lt. intros H.
  repeat match goal with
         | |- context [?x <? ?y] => destruct (Z.ltb_spec x y)
         | |- context [?x =? ?y] => destruct (Z.eqb_spec x y)
         | H : context [?x <? ?y] |- _ => destruct (Z.ltb_spec x y)
         | H : context [?x =? ?y] |- _ => destruct (Z.eqb_spec x y)
         end; simpl in *; try reflexivity; try discriminate; lia.
Qed.

Lemma date_lt_irrefl (a : Date) : date_lt a a = false.
Proof.
  unfold date_lt. rewrite !Z.ltb_irrefl, !Z.eqb_refl. reflexivity.
Qed.

Lemma Model_save_rows (e : Engagement) (s : EngagementStore) (x : Engagement) :
  In x (engagement_table (snd (Model_save e s))) ->
  In x (engagement_table s)
  \/ (start_date x = start_date e /\ end_date x = end_date e).
Proof.
  unfold Model_save.
  destruct (mem _ _ && mem _ _); [|now left].
  destruct (eng_pk e) as [pk|]; [destruct (existsb _ _)|]; simpl.
  - intros H. apply in_map_iff in H as [y [<- Hy]].
    destruct (has_pk pk y); [now right | now left].
  - intros H. apply in_app_iff in H as [H|[<-|[]]]; [now left | now right].
  - intros H. apply in_app_iff in H as [H|[<-|[]]]; [now left | now right].
Qed.

Lemma Engagement_save_ordered (e : Engagement) (s : EngagementStore) :
  dates_ordered s -> dates_ordered (snd (Engagement_save e s)).
Proof.
  intros H x d Hx Hd. unfold Engagement_save in Hx.
  destruct (end_date e) as [d'|] eqn:E.
  - destruct (date_lt (start_date e) d') eqn:L; [|exact (H x d Hx Hd)].
    apply Model_save_rows in Hx as [Hx|[Hs He]]; [exact (H x d Hx Hd)|].
    rewrite Hs. rewrite He, E in Hd. now injection Hd as <-.
  - apply Model_save_rows in Hx as [Hx|[Hs He]]; [exact (H x d Hx Hd)|].
    rewrite He, E in Hd. discriminate.
Qed.

(** Saving engagements through [Engagement.save], in any number and with
    any outcome, keeps the engagement table such that every engagement with
    an end date starts strictly before it ends. *)
Theorem Engagement_save_keeps_order (es : list Engagement) (s : EngagementStore) :
  dates_ordered s ->
  dates_ordered (fold_left (fun s e => snd (Engagement_save e s)) es s).
Proof.
  revert s. induction es as [|e es IH]; intros s H; [exact H|].
  simpl. apply IH. now apply Engagement_save_ordered.
Qed.

Lemma Engagement_save_keeps_order_witness :
  let s := mkEngagementStore [1] [1] [] 1 in
  let es := [mkEngagement None 1 1 (mkDate 2005 11 22) (Some (mkDate 2021 12 8));
             mkEngagement None 1 1 (mkDate 2021 12 8) (Some (mkDate 2005 11 22));
             mkEngagement (Some 1) 1 1 (mkDate 2005 11 22) None] in
  dates_ordered (fold_left (fun s e => snd (Engagement_save e s)) es s).
Proof.
  cbv zeta. apply Engagement_save_keeps_order. intros e d [].
Defined.

(** [Engagement.save] refuses an engagement that ends on or before the day
    it starts: it raises [AssertionError] and writes nothing. *)
Theorem Engagement_save_rejects (e : Engagement) (d : Date) (s : EngagementStore) :
  end_date e = Some d ->
  d = start_date e \/ date_lt d (start_date e) = true ->
  Engagement_save e s = (AssertionError, s).
Proof.
  intros He Hd. unfold Engagement_save. rewrite He.
  destruct Hd as [->|Hd].
  - now rewrite date_lt_irrefl.
  - now rewrite (date_lt_asym _ _ Hd).
Qed.

Lemma Engagement_save_rejects_witness :
  let s := mkEngagementStore [1] [1] [] 1 in
  Engagement_save
    (mkEngagement None 1 1 (mkDate 2021 12 8) (Some (mkDate 2021 12 8))) s
  = (AssertionError, s).
Proof.
  cbv zeta.
  apply (Engagement_save_rejects
           (mkEngagement None 1 1 (mkDate 2021 12 8) (Some (mkDate 2021 12 8)))
           (mkDate 2021 12 8) (mkEngagementStore [1] [1] [] 1)).
  - reflexivity.
  - left. reflexivity.
Defined.
